(** * fwprofile maintenance scripts: line filters over text files

    A shallow embedding of the two Python scripts of the repository,
    [UpdateCopyrightNotice.py] and [scripts/RemoveTripleBlankCommentLines.py],
    together with the properties their specification states about them.

    Layout:
    - text files: a file holds a text; iterating over a file opened for
      reading yields its lines, terminator included; writing appends text;
    - the run-time environment: a store of named files threaded through a
      small state-and-exception monad;
    - one module per script, with the script's own names;
    - the properties. *)

From Stdlib Require Import String Ascii List Bool Arith Lia.
From stdpp Require Import base option list strings gmap.

Local Open Scope string_scope.
Local Open Scope list_scope.

(** ** Text and lines *)

(** The line terminator, ["\n"]. *)
Definition nl : ascii := "010"%char.

(** [for line in f]: the lines of a text, each with its terminator; only the
    last line may lack one.  Newline translation is the identity (text
    without carriage returns). *)
Fixpoint readlines (text : string) : list string :=
  match text with
  | EmptyString => []
  | String c rest =>
      if Ascii.eqb c nl then String c EmptyString :: readlines rest
      else match readlines rest with
           | [] => [String c EmptyString]
           | l :: ls => String c l :: ls
           end
  end.

(** The text obtained by writing the given strings one after the other. *)
Definition join (ls : list string) : string :=
  fold_right String.append EmptyString ls.




(** [needle in hay] on Python strings: substring test. *)
Fixpoint contains (needle hay : string) : bool :=
  String.prefix needle hay ||
  match hay with
  | EmptyString => false
  | String _ hay' => contains needle hay'
  end.

(** ** The run-time environment *)

(** What a path names: a regular file with its text, or a directory. *)
Inductive node : Type :=
| File (text : string)
| Directory.

(** The exceptions the scripts can raise. *)
Inductive exn : Type :=
| FileNotFoundError
| IsADirectoryError
| IndexError.

(** A computation over the file store: it ends normally with a value or
    with an exception; what it did to the store before stays done. *)
Definition io (A : Type) : Type :=
  gmap string node -> (exn + A) * gmap string node.

Definition raise {A} (e : exn) : io A := fun fs => (inl e, fs).

Global Instance io_ret : MRet io := fun A a fs => (inr a, fs).

Global Instance io_bind : MBind io := fun A B k m fs =>
  match m fs with
  | (inl e, fs') => (inl e, fs')
  | (inr a, fs') => k a fs'
  end.

(** [open(name, 'r')]: the path must name a regular file.  Nothing is read
    yet; the handle is the name. *)
Definition open_r (name : string) : io string :=
  fun fs =>
    match fs !! name with
    | None => (inl FileNotFoundError, fs)
    | Some Directory => (inl IsADirectoryError, fs)
    | Some (File _) => (inr name, fs)
    end.

(** [open(name, 'w')]: creates the file or empties it at once. *)
Definition open_w (name : string) : io string :=
  fun fs =>
    match fs !! name with
    | Some Directory => (inl IsADirectoryError, fs)
    | _ => (inr name, <[name := File EmptyString]> fs)
    end.

(** The lines a read handle yields: those of the file as it is when the
    iteration runs. *)
Definition lines_of (handle : string) : io (list string) :=
  fun fs =>
    match fs !! handle with
    | Some (File text) => (inr (readlines text), fs)
    | _ => (inr [], fs)
    end.

(** [close()] of a write handle.  The handle buffers what is written: the
    text reaches the file here.  (A buffer flushed earlier leaves the same
    text in the file in the end; only a reader of the output file itself,
    while it is being written, could tell.) *)
Definition close_w (handle : string) (written : string) : io unit :=
  fun fs => (inr tt, <[handle := File written]> fs).

(** [sys.argv[i]]. *)
Definition argv_get (sys_argv : list string) (i : nat) : io string :=
  match sys_argv !! i with
  | Some a => mret a
  | None => raise IndexError
  end.

(** [os.system('mv ' + src + ' ' + dst)] for plain file names: a file moved
    onto a directory goes inside it; the exit status of the command is
    dropped, so a move that fails changes nothing and raises nothing. *)
Definition mv (src dst : string) : io unit :=
  fun fs =>
    match fs !! src with
    | Some (File text) =>
        if String.eqb src dst then (inr tt, fs)
        else match fs !! dst with
             | Some Directory =>
                 (inr tt, <[dst +:+ "/" +:+ src := File text]> (delete src fs))
             | _ => (inr tt, <[dst := File text]> (delete src fs))
             end
    | _ => (inr tt, fs)
    end.

(** ** scripts/RemoveTripleBlankCommentLines.py *)

Module RemoveTripleBlankCommentLines.

(** Temporary file where the updated input is placed. *)
Definition tempFileName : string := "temp.txt".

(** The line the script looks for: a space, an asterisk, a terminator. *)
Definition blank : string := String " " (String "*" (String nl EmptyString)).

(** The variables of [removeTripleBlankLine]; [written] is the text
    written to [outFile] so far. *)
Record state : Type := State {
  written : string;
  skipLine : nat;
  line1 : string;
  line2 : string;
  line3 : string
}.

Definition init : state :=
  State EmptyString 0 EmptyString EmptyString EmptyString.

(** One turn of the [for line in inFile] loop. *)
Definition body (st : state) (line : string) : state :=
  let l1 := line2 st in
  let l2 := line3 st in
  let l3 := line in
  let '(out, skip) :=
    if String.eqb l1 blank && String.eqb l2 blank && String.eqb l3 blank
    then (written st +:+ l1, 3)
    else if Nat.eqb (skipLine st) 0
         then (written st +:+ l1, skipLine st)
         else (written st, skipLine st) in
  let skip' := if Nat.ltb 0 skip then skip - 1 else skip in
  State out skip' l1 l2 l3.

Definition loop (lines : list string) (st : state) : state :=
  fold_left body lines st.

(** The two writes after the loop. *)
Definition flush (st : state) : string :=
  (written st +:+ line2 st) +:+ line3 st.

(** [inFile.close()] does nothing to the store. *)
Definition removeTripleBlankLine (inpFileName outFileName : string) : io unit :=
  inFile ← open_r inpFileName;
  outFile ← open_w outFileName;
  lines ← lines_of inFile;
  close_w outFile (flush (loop lines init)).

(** The script reads [sys.argv], not the parameter of [main]: [sys_argv] is
    the whole of it, program name first. *)
Definition main (sys_argv : list string) : io unit :=
  inpFileName ← argv_get sys_argv 1;
  removeTripleBlankLine inpFileName tempFileName;;
  target ← argv_get sys_argv 1;
  mv tempFileName target.

End RemoveTripleBlankCommentLines.

(** ** UpdateCopyrightNotice.py *)

Module UpdateCopyrightNotice.

(** Temporary file where the updated input is placed. *)
Definition tempFileName : string := "temp.txt".

(** The variables of [removeCopyrightNotice]: [written] is the text
    written to [outFile] so far, [licenceFile] the lines its iterator has
    not yielded yet. *)
Record state : Type := State {
  written : string;
  skipLine : nat;
  licenceFile : list string
}.

Definition init (licence : list string) : state := State EmptyString 0 licence.

(** One turn of the [for line in inFile] loop: three [if]s in a row. *)
Definition body (st : state) (line : string) : state :=
  let st1 :=
    if Nat.eqb (skipLine st) 0
    then State (written st +:+ line) (skipLine st) (licenceFile st)
    else st in
  let st2 :=
    if contains "@copyright" line
    then State (fold_left String.append (licenceFile st1) (written st1)) 1 []
    else st1 in
  if Nat.eqb (skipLine st2) 1 && contains "*/" line
  then State (written st2 +:+ line) 0 (licenceFile st2)
  else st2.

Definition loop (lines : list string) (st : state) : state :=
  fold_left body lines st.

(** The licence file is read when its iterator is first used, at the first
    marker line; no write reaches the store between
    [open(outFileName,'w')] and the close, so its lines are those of the
    store right after the opens.  [inFile.close()] does nothing to the
    store. *)
Definition removeCopyrightNotice
    (inpFileName outFileName licenceFileName : string) : io unit :=
  licenceFile ← open_r licenceFileName;
  inFile ← open_r inpFileName;
  outFile ← open_w outFileName;
  licence ← lines_of licenceFile;
  lines ← lines_of inFile;
  close_w outFile (written (loop lines (init licence))).

(** The script reads [sys.argv], not the parameter of [main]: [sys_argv] is
    the whole of it, program name first.  Both arguments of the call are
    evaluated before [removeCopyrightNotice] is entered. *)
Definition main (sys_argv : list string) : io unit :=
  inpFileName ← argv_get sys_argv 1;
  licenceFileName ← argv_get sys_argv 2;
  removeCopyrightNotice inpFileName tempFileName licenceFileName;;
  target ← argv_get sys_argv 1;
  mv tempFileName target.

End UpdateCopyrightNotice.

(** ** Vocabulary of the properties *)

(** A complete line with the given content. *)
Definition line (s : string) : string := s +:+ String nl EmptyString.

(** The line is the blank comment line. *)
Definition is_blank (l : string) : bool :=
  String.eqb l RemoveTripleBlankCommentLines.blank.

(** Some three lines in a row are all blank comment lines. *)
Fixpoint has_triple (ls : list string) : bool :=
  match ls with
  | a :: ((b :: c :: _) as rest) =>
      (is_blank a && is_blank b && is_blank c) || has_triple rest
  | _ => false
  end.

(** No line of the list is a blank comment line. *)
Definition sentinels (ls : list string) : bool :=
  forallb (fun l => negb (is_blank l)) ls.






(** The path names a regular file. *)
Definition is_file (fs : gmap string node) (path : string) : Prop :=
  exists text : string, fs !! path = Some (File text).

(** ** Facts about text and lines *)

Section Text.

Lemma append_cons (c : ascii) (s t : string) :
  String c s +:+ t = String c (s +:+ t).
Proof. reflexivity. Qed.

Lemma append_nil_r (s : string) : s +:+ EmptyString = s.
Proof.
  induction s as [|c s IH]; [reflexivity|].
  rewrite append_cons, IH. reflexivity.
Qed.

Lemma append_assoc (s t u : string) : (s +:+ t) +:+ u = s +:+ (t +:+ u).
Proof.
  induction s as [|c s IH]; [reflexivity|].
  rewrite !append_cons, IH. reflexivity.
Qed.

Lemma join_cons (l : string) (ls : list string) :
  join (l :: ls) = l +:+ join ls.
Proof. reflexivity. Qed.

Lemma join_app (xs ys : list string) : join (xs ++ ys) = join xs +:+ join ys.
Proof.
  induction xs as [|x xs IH]; [reflexivity|].
  cbn [app]. rewrite !join_cons, IH, append_assoc. reflexivity.
Qed.










Example readlines_example :
  readlines (line "/**" +:+ line " *" +:+ " */") =
    [line "/**"; RemoveTripleBlankCommentLines.blank; " */"].
Proof. reflexivity. Qed.

Example contains_example :
  contains "@copyright" (line " * @copyright 2012") = true /\
  contains "*/" (line " * @copyright 2012") = false /\
  contains "*/" (line " */") = true.
Proof. repeat split. Qed.

End Text.

(** ** The scripts on the file store *)

Section Store.

Import RemoveTripleBlankCommentLines.

(** With the input in place and an output path of its own, the collapser
    ends normally and leaves in the output file what the loop and the two
    final writes produced from the lines of the input. *)
Lemma removeTripleBlankLine_run (fs : gmap string node)
    (inpFileName outFileName text : string) :
  fs !! inpFileName = Some (File text) ->
  inpFileName <> outFileName ->
  fs !! outFileName <> Some Directory ->
  removeTripleBlankLine inpFileName outFileName fs =
    (inr tt, <[outFileName := File (flush (loop (readlines text) init))]> fs).
Proof.
  intros Hin Hne Hout.
  unfold removeTripleBlankLine,
    mbind, io_bind, open_r, open_w, lines_of, close_w.
  rewrite Hin.
  destruct (fs !! outFileName) as [[t|]|] eqn:E; try congruence;
    rewrite lookup_insert_ne, Hin, insert_insert_eq by congruence; reflexivity.
Qed.

(** The same for the notice replacer. *)
Lemma removeCopyrightNotice_run (fs : gmap string node)
    (inpFileName outFileName licenceFileName text licence : string) :
  fs !! inpFileName = Some (File text) ->
  fs !! licenceFileName = Some (File licence) ->
  inpFileName <> outFileName ->
  licenceFileName <> outFileName ->
  fs !! outFileName <> Some Directory ->
  UpdateCopyrightNotice.removeCopyrightNotice
    inpFileName outFileName licenceFileName fs =
    (inr tt,
     <[outFileName :=
         File (UpdateCopyrightNotice.written
                 (UpdateCopyrightNotice.loop (readlines text)
                    (UpdateCopyrightNotice.init (readlines licence))))]> fs).
Proof.
  intros Hin Hlic Hne Hne' Hout.
  unfold UpdateCopyrightNotice.removeCopyrightNotice,
    mbind, io_bind, open_r, open_w, lines_of, close_w.
  rewrite Hlic, Hin.
  destruct (fs !! outFileName) as [[t|]|] eqn:E; try congruence;
    rewrite lookup_insert_ne, Hlic by congruence;
    rewrite lookup_insert_ne, Hin by congruence;
    rewrite insert_insert_eq; reflexivity.
Qed.

End Store.

(** ** The sliding window of the collapser *)


Section Window.

Import RemoveTripleBlankCommentLines.

Lemma is_blank_eq (l : string) : is_blank l = true -> l = blank.
Proof. apply String.eqb_eq. Qed.

(** The three ways a turn of the loop can go. *)
Lemma body_match (st : state) (x : string) :
  is_blank (line2 st) && is_blank (line3 st) && is_blank x = true ->
  body st x = State (written st +:+ line2 st) 2 (line2 st) (line3 st) x.
Proof. unfold body, is_blank. intros ->. reflexivity. Qed.

Lemma body_plain (st : state) (x : string) :
  is_blank (line2 st) && is_blank (line3 st) && is_blank x = false ->
  skipLine st = 0 ->
  body st x = State (written st +:+ line2 st) 0 (line2 st) (line3 st) x.
Proof. unfold body, is_blank. intros -> ->. reflexivity. Qed.

Lemma body_skip (st : state) (x : string) (n : nat) :
  is_blank (line2 st) && is_blank (line3 st) && is_blank x = false ->
  skipLine st = S n ->
  body st x = State (written st) n (line2 st) (line3 st) x.
Proof.
  unfold body, is_blank. intros -> ->. cbn. rewrite Nat.sub_0_r. reflexivity.
Qed.

Lemma loop_app (xs ys : list string) (st : state) :
  loop (xs ++ ys) st = loop ys (loop xs st).
Proof. apply fold_left_app. Qed.

Lemma has_triple_cons_sentinel (x : string) (xs : list string) :
  is_blank x = false -> has_triple (x :: xs) = has_triple xs.
Proof.
  intros Hx. destruct xs as [|b [|c rest]]; cbn [has_triple]; try reflexivity.
  rewrite Hx. reflexivity.
Qed.

Lemma has_triple_sentinels_app (xs ys : list string) :
  sentinels xs = true -> has_triple (xs ++ ys) = has_triple ys.
Proof.
  induction xs as [|x xs IH]; [reflexivity|].
  cbn [sentinels forallb]. intros [Hx Hxs]%andb_true_iff.
  apply negb_true_iff in Hx. cbn [app].
  rewrite (has_triple_cons_sentinel _ _ Hx). apply IH, Hxs.
Qed.

Lemma has_triple_sentinels (xs : list string) :
  sentinels xs = true -> has_triple xs = false.
Proof.
  intros H. rewrite <- (app_nil_r xs), (has_triple_sentinels_app _ _ H).
  reflexivity.
Qed.

Lemma last_cons_default (x d : string) (xs : list string) :
  List.last (x :: xs) d = List.last xs x.
Proof.
  revert x d. induction xs as [|y ys IH]; intros x d; [reflexivity|].
  change (List.last (x :: y :: ys) d) with (List.last (y :: ys) d).
  change (List.last (y :: ys) x) with (List.last (y :: ys) x).
  rewrite !IH. reflexivity.
Qed.

Lemma last_sentinel (xs : list string) (d : string) :
  sentinels xs = true -> is_blank d = false ->
  is_blank (List.last xs d) = false.
Proof.
  induction xs as [|x xs IH]; [intros _ H; exact H|].
  cbn [sentinels forallb]. intros [Hx Hxs]%andb_true_iff Hd.
  apply negb_true_iff in Hx. destruct xs as [|y ys]; [exact Hx|].
  change (List.last (x :: y :: ys) d) with (List.last (y :: ys) d).
  apply IH; auto.
Qed.

(** While no three blank lines meet in the window and nothing is being
    skipped, every line read comes out: what is written plus what the
    window holds grows by the line read. *)
Lemma loop_plain (xs : list string) (st : state) :
  skipLine st = 0 ->
  has_triple (line2 st :: line3 st :: xs) = false ->
  skipLine (loop xs st) = 0 /\
  flush (loop xs st) = flush st +:+ join xs /\
  line3 (loop xs st) = List.last xs (line3 st).
Proof.
  revert st. induction xs as [|x xs IH]; intros st Hs Ht.
  - cbn. unfold flush. rewrite append_nil_r. auto.
  - cbn [has_triple] in Ht. apply orb_false_iff in Ht as [Hw Ht].
    cbn [loop fold_left]. rewrite (body_plain _ _ Hw Hs).
    destruct (IH (State (written st +:+ line2 st) 0 (line2 st) (line3 st) x))
      as (H1 & H2 & H3); [reflexivity|exact Ht|].
    unfold loop in *. rewrite H1, H2, H3. split; [reflexivity|]. split.
    + unfold flush. cbn [written line2 line3]. rewrite join_cons, !append_assoc.
      reflexivity.
    + cbn [line3]. symmetry. apply last_cons_default.
Qed.

(** A run of blank lines entering a window that already holds two: every
    turn is a match and writes one blank line. *)
Lemma loop_blanks (n : nat) (st : state) :
  is_blank (line2 st) = true -> is_blank (line3 st) = true ->
  loop (repeat blank (S n)) st =
    State (written st +:+ join (repeat blank (S n))) 2 blank blank blank.
Proof.
  revert st. induction n as [|n IH]; intros st H2 H3.
  - cbn [repeat loop fold_left]. rewrite body_match
      by (rewrite H2, H3; reflexivity).
    rewrite (is_blank_eq _ H2), (is_blank_eq _ H3).
    cbn [join fold_right]. rewrite append_nil_r. reflexivity.
  - change (repeat blank (S (S n))) with (blank :: repeat blank (S n)).
    cbn [loop fold_left]. rewrite body_match by (rewrite H2, H3; reflexivity).
    fold (loop (repeat blank (S n))
            (State (written st +:+ line2 st) 2 (line2 st) (line3 st) blank)).
    rewrite IH by (cbn [line2 line3]; auto).
    cbn [written]. rewrite (is_blank_eq _ H2), join_cons, append_assoc.
    reflexivity.
Qed.

Lemma sentinels_window (xs : list string) :
  sentinels xs = true ->
  has_triple (EmptyString :: EmptyString :: xs) = false.
Proof.
  intros H. rewrite !has_triple_cons_sentinel by reflexivity.
  apply has_triple_sentinels, H.
Qed.

(** A run of three or more blank lines between sentinel lines, with at
    least two lines after it, loses its last two lines. *)
Lemma run_collapse (n : nat) (pre post : list string) :
  sentinels pre = true -> sentinels post = true -> 2 <= length post ->
  flush (loop (pre ++ repeat blank (3 + n) ++ post) init) =
    join (pre ++ repeat blank (1 + n) ++ post).
Proof.
  intros Hpre Hpost Hlen.
  destruct post as [|p1 [|p2 rest]]; cbn [length] in Hlen; try lia.
  cbn [sentinels forallb] in Hpost.
  apply andb_true_iff in Hpost as [Hp1%negb_true_iff Hpost].
  apply andb_true_iff in Hpost as [Hp2%negb_true_iff Hrest].
  destruct (loop_plain pre init) as (H1 & H2 & H3);
    [reflexivity|apply sentinels_window, Hpre|].
  assert (Hl3 : is_blank (line3 (loop pre init)) = false).
  { rewrite H3. apply last_sentinel; [exact Hpre|reflexivity]. }
  change (repeat blank (3 + n)) with ([blank; blank] ++ repeat blank (S n)).
  rewrite !loop_app.
  set (s := loop pre init) in *.
  change (loop [blank; blank] s) with (body (body s blank) blank).
  rewrite (body_plain s) by (rewrite ?Hl3, ?andb_false_r; auto).
  rewrite body_plain
    by (cbn [line2 line3 skipLine]; rewrite ?Hl3; reflexivity).
  cbn [written line2 line3].
  rewrite loop_blanks by reflexivity.
  change (loop (p1 :: p2 :: rest) ?st) with (loop rest (body (body st p1) p2)).
  rewrite (body_skip _ p1 1)
    by (cbn [line2 line3 skipLine]; rewrite ?Hp1; reflexivity).
  rewrite (body_skip _ p2 0)
    by (cbn [line2 line3 skipLine]; rewrite ?Hp1, ?andb_false_r; reflexivity).
  cbn [written line2 line3].
  match goal with |- flush (loop rest ?st) = _ =>
    destruct (loop_plain rest st) as (_ & -> & _);
      [reflexivity| |]
  end.
  { cbn [line2 line3]. apply has_triple_sentinels.
    cbn [sentinels forallb]. rewrite Hp1, Hp2. exact Hrest. }
  unfold flush in *. cbn [written line2 line3] in *.
  change (loop pre init) with s in H2. rewrite H2.
  change (written init) with EmptyString.
  change (line2 init) with EmptyString.
  change (line3 init) with EmptyString.
  change (repeat blank (1 + n)) with (repeat blank (S n)).
  rewrite !join_app, !join_cons, !append_assoc. reflexivity.
Qed.





End Window.

(** ** The skip flag of the notice replacer *)

Section Notice.

Import UpdateCopyrightNotice.









End Notice.

(** ** Properties of the notice replacer *)

Section NoticeProperties.

Import UpdateCopyrightNotice.


Section Run.

(** A store that holds the target and the licence file, and an output path
    of its own that can be written. *)
Context (fs : gmap string node) (target out lic text payload : string).
Hypothesis target_present : fs !! target = Some (File text).
Hypothesis licence_present : fs !! lic = Some (File payload).
Hypothesis out_not_target : target <> out.
Hypothesis out_not_licence : lic <> out.
Hypothesis out_writable : fs !! out <> Some Directory.




End Run.


(** C4. The first marker line is not always written once: when it also
    holds the closing token, the third [if] of the loop writes it a second
    time, after the licence text.  Here the one-line notice
    [/* @copyright 2012 */] comes out twice, around the new notice. *)
Theorem marker_line_with_closing_token_written_twice :
  let fs : gmap string node :=
    <["lic.txt" := File (line " * New notice")]>
      {["a.c" := File (join [line "/* @copyright 2012 */";
                             line "int x;"])]} in
  removeCopyrightNotice "a.c" "temp.txt" "lic.txt" fs =
    (inr tt,
     <["temp.txt" := File (join [line "/* @copyright 2012 */";
                                 line " * New notice";
                                 line "/* @copyright 2012 */";
                                 line "int x;"])]> fs).
Proof.
  intros fs.
  rewrite (removeCopyrightNotice_run fs "a.c" "temp.txt" "lic.txt"
             (join [line "/* @copyright 2012 */"; line "int x;"])
             (line " * New notice"));
    [|vm_compute; reflexivity|vm_compute; reflexivity
     |discriminate|discriminate|vm_compute; discriminate].
  do 3 f_equal.
Qed.





End NoticeProperties.

(** ** Properties of the collapser *)

Section CollapserProperties.

Import RemoveTripleBlankCommentLines.




Section Run.

(** A store that holds the input file, and an output path of its own that
    can be written. *)
Context (fs : gmap string node) (inp out text : string).
Hypothesis input_present : fs !! inp = Some (File text).
Hypothesis out_not_input : inp <> out.
Hypothesis out_writable : fs !! out <> Some Directory.

Lemma removeTripleBlankLine_output :
  removeTripleBlankLine inp out fs =
    (inr tt, <[out := File (flush (loop (readlines text) init))]> fs).
Proof. apply removeTripleBlankLine_run; assumption. Qed.



(** Three blank comment lines between sentinel lines, with at least two
    lines after them, come out as one. *)
Lemma triple_collapse (pre post : list string) :
  readlines text = pre ++ [blank; blank; blank] ++ post ->
  sentinels pre = true -> sentinels post = true -> 2 <= length post ->
  removeTripleBlankLine inp out fs =
    (inr tt, <[out := File (join (pre ++ [blank] ++ post))]> fs).
Proof.
  intros Hlines Hpre Hpost Hlen.
  rewrite removeTripleBlankLine_output. do 3 f_equal.
  rewrite Hlines. apply (run_collapse 0 _ _ Hpre Hpost Hlen).
Qed.


End Run.



(** C2. The exact-3 collapse fails when a single line follows the three
    blank comment lines: the turn that reads it skips one of them, the
    loop ends, and the two final writes put the other back.  Two of the
    three lines come out. *)
Theorem triple_before_last_line_keeps_two :
  let fs : gmap string node :=
    {["a.c" := File (join [line "/**"; blank; blank; blank; line " */"])]} in
  removeTripleBlankLine "a.c" "temp.txt" fs =
    (inr tt,
     <["temp.txt" := File (join [line "/**"; blank; blank; line " */"])]> fs).
Proof.
  intros fs.
  rewrite (removeTripleBlankLine_run fs "a.c" "temp.txt"
             (join [line "/**"; blank; blank; blank; line " */"]));
    [|vm_compute; reflexivity|discriminate|vm_compute; discriminate].
  do 3 f_equal.
Qed.





End CollapserProperties.

(** ** Properties of the two programs as invoked *)

Section Invocation.




(** C8. Missing arguments.  With fewer than two arguments after the program
    name the notice replacer, and with none the collapser, ends with an
    index error before any file is opened: the store is as it was. *)
Theorem missing_argument (fs : gmap string node) (sys_argv : list string) :
  (length sys_argv < 3 ->
   UpdateCopyrightNotice.main sys_argv fs = (inl IndexError, fs)) /\
  (length sys_argv < 2 ->
   RemoveTripleBlankCommentLines.main sys_argv fs = (inl IndexError, fs)).
Proof.
  split; intros Hlen;
    destruct sys_argv as [|prog [|a1 [|a2 rest]]];
    cbn [length] in Hlen; try lia; reflexivity.
Qed.

Lemma missing_argument_witness :
  let fs : gmap string node := {["a.c" := File (line "int x;")]} in
  UpdateCopyrightNotice.main ["UpdateCopyrightNotice.py"; "a.c"] fs
    = (inl IndexError, fs) /\
  RemoveTripleBlankCommentLines.main ["RemoveTripleBlankCommentLines.py"] fs
    = (inl IndexError, fs).
Proof.
  intros fs. split.
  - apply (proj1 (missing_argument fs ["UpdateCopyrightNotice.py"; "a.c"])).
    cbn [length]; lia.
  - apply (proj2 (missing_argument fs ["RemoveTripleBlankCommentLines.py"])).
    cbn [length]; lia.
Defined.




End Invocation.

(** ** More about the sliding window *)

Section WindowInvariant.

Import RemoveTripleBlankCommentLines.






End WindowInvariant.

(** ** Runs of blank comment lines, and where the window forgets them *)

Section Runs.

Import RemoveTripleBlankCommentLines.







End Runs.

(** ** Further properties of the collapser *)

Section CollapserFurther.

Import RemoveTripleBlankCommentLines.


Section OneFile.

(** A store that holds the input file, and an output path of its own that
    can be written. *)
Context (fs : gmap string node) (inp out text : string).
Hypothesis input_present : fs !! inp = Some (File text).
Hypothesis out_not_input : inp <> out.
Hypothesis out_writable : fs !! out <> Some Directory.



End OneFile.



Section Forgetting.

Context (xs : list string) (s1 s2 : string).
Hypothesis s1_sentinel : is_blank s1 = false.


End Forgetting.


End CollapserFurther.

(** ** Further properties of the notice replacer *)

Section NoticeFurther.

Import UpdateCopyrightNotice.




Section OneTarget.

(** A store that holds the target and the licence file, and an output path
    of its own that can be written. *)
Context (fs : gmap string node) (target out lic text payload : string).
Hypothesis target_present : fs !! target = Some (File text).
Hypothesis licence_present : fs !! lic = Some (File payload).
Hypothesis out_not_target : target <> out.
Hypothesis out_not_licence : lic <> out.
Hypothesis out_writable : fs !! out <> Some Directory.




End OneTarget.




Section Twice.

(** A store with a target and two licence files; [out1] receives the
    result of a first run and is the input of a second run, which writes
    to [out2]. *)
Context (fs : gmap string node).
Context (target licA licB out1 out2 text a b : string).
Hypothesis target_present : fs !! target = Some (File text).
Hypothesis licA_present : fs !! licA = Some (File a).
Hypothesis licB_present : fs !! licB = Some (File b).
Hypothesis out1_not_target : target <> out1.
Hypothesis out1_not_licA : licA <> out1.
Hypothesis out1_not_licB : licB <> out1.
Hypothesis out2_not_out1 : out1 <> out2.
Hypothesis out2_not_licB : licB <> out2.
Hypothesis out1_writable : fs !! out1 <> Some Directory.
Hypothesis out2_writable : fs !! out2 <> Some Directory.


End Twice.



Section CutShortLicence.

Context (fs : gmap string node) (target out lic text payload : string).
Hypothesis target_present : fs !! target = Some (File text).
Hypothesis licence_present : fs !! lic = Some (File payload).
Hypothesis out_not_target : target <> out.
Hypothesis out_not_licence : lic <> out.
Hypothesis out_writable : fs !! out <> Some Directory.


End CutShortLicence.


End NoticeFurther.

(** ** Failures and whole runs *)

Section Outcomes.







End Outcomes.

Section WholeRuns.











(** X14. A target that is the temporary file itself is emptied.  Opening
    the output empties the file before its first line is read, so the loop
    reads nothing, and the move of the file onto itself changes nothing:
    either program ends normally and leaves the file without text. *)
Theorem target_named_temp_is_emptied (fs : gmap string node)
    (sys_argv : list string) (text : string) :
  sys_argv !! 1 = Some "temp.txt" ->
  fs !! "temp.txt" = Some (File text) ->
  RemoveTripleBlankCommentLines.main sys_argv fs =
    (inr tt, <["temp.txt" := File EmptyString]> fs) /\
  (forall lic : string,
      sys_argv !! 2 = Some lic -> is_file fs lic ->
      UpdateCopyrightNotice.main sys_argv fs =
        (inr tt, <["temp.txt" := File EmptyString]> fs)).
Proof.
  intros Harg Hin. split.
  - unfold RemoveTripleBlankCommentLines.main, argv_get. rewrite Harg.
    unfold mbind, io_bind, mret, io_ret,
      RemoveTripleBlankCommentLines.removeTripleBlankLine,
      mbind, io_bind, open_r, open_w, lines_of, close_w.
    change RemoveTripleBlankCommentLines.tempFileName with "temp.txt".
    repeat (progress (rewrite ?Hin, ?lookup_insert_eq; cbv beta iota)).
    cbn [readlines]. rewrite insert_insert_eq. unfold mv.
    rewrite lookup_insert_eq. reflexivity.
  - intros lic Harg2 [payload Hlic].
    unfold UpdateCopyrightNotice.main, argv_get. rewrite Harg, Harg2.
    unfold mbind, io_bind, mret, io_ret,
      UpdateCopyrightNotice.removeCopyrightNotice,
      mbind, io_bind, open_r, open_w, lines_of, close_w.
    change UpdateCopyrightNotice.tempFileName with "temp.txt".
    repeat (progress (rewrite ?Hlic, ?Hin; cbv beta iota)).
    destruct (<["temp.txt" := File EmptyString]> fs !! lic) as [[l|]|];
      repeat (progress (rewrite ?lookup_insert_eq; cbv beta iota));
      cbn [readlines]; rewrite insert_insert_eq; unfold mv;
      rewrite lookup_insert_eq; reflexivity.
Qed.

Lemma target_named_temp_is_emptied_witness :
  let fs : gmap string node :=
    {["temp.txt" := File (join [line "/**"; line " */"; line "int x;"])]} in
  RemoveTripleBlankCommentLines.main
    ["RemoveTripleBlankCommentLines.py"; "temp.txt"] fs =
    (inr tt, <["temp.txt" := File EmptyString]> fs).
Proof.
  intros fs.
  apply (target_named_temp_is_emptied fs
           ["RemoveTripleBlankCommentLines.py"; "temp.txt"]
           (join [line "/**"; line " */"; line "int x;"])).
  - reflexivity.
  - vm_compute; reflexivity.
Defined.

End WholeRuns.
